(** * cuOmmBaking: the error-reporting layer of [src/Util/Exception.h]

    A shallow embedding of the header: the [Exception] class, the assertion
    macros [OMM_ASSERT] and [OMM_ASSERT_MSG], the four [checkCudaError]
    functions and the call-site macros [OMM_CUDA_CHECK] and
    [OMM_CUDA_CHECK_NOTHROW] in both build configurations.

    Text is [string]; a [const char*] is the text up to its terminator.  A
    [std::stringstream] fed with [<<] is the concatenation of what is fed.
    Control effects ([throw], [std::terminate]) and the text written to
    [std::cerr] are explicit: a computation maps a world to an outcome and
    the world it leaves behind.

    The two assertion macros throw [Exception( ss.str().c_str() )], a
    construction for which the class declares no constructor.  Their model
    leaves that construction open, so what is proved of them holds whatever
    it would build; nothing is proved of the object they would throw. *)

From Stdlib Require Import String Ascii Bool ZArith NArith DecimalString DecimalN Lia.

Local Open Scope string_scope.

(** ** Text *)

Module Text.

(** [operator<<] on an [int] or an [unsigned int] with the stream's default
    flags: the decimal digits, no sign, no padding. *)
Definition decimal (n : N) : string := NilEmpty.string_of_uint (N.to_uint n).

(** The character that "\n" denotes in the header's literals. *)
Definition newline : string := String "010" EmptyString.

(** [needle] occurs in [hay] as a run of consecutive characters. *)
Definition contains (needle hay : string) : Prop :=
  exists pre post, hay = pre ++ needle ++ post.

Fixpoint starts_with (p s : string) : bool :=
  match p, s with
  | EmptyString, _ => true
  | String a p', String b s' => Ascii.eqb a b && starts_with p' s'
  | String _ _, EmptyString => false
  end.

(** The executable counterpart of [contains]. *)
Fixpoint containsb (needle hay : string) : bool :=
  starts_with needle hay ||
  match hay with
  | EmptyString => false
  | String _ hay' => containsb needle hay'
  end.

(** [std::string::c_str()] read as a [const char*]: the text up to the first
    NUL character. *)
Fixpoint c_str (s : string) : string :=
  match s with
  | EmptyString => EmptyString
  | String c s' => if Ascii.eqb c Ascii.zero then EmptyString else String c (c_str s')
  end.

End Text.

Import Text.

(** ** Result codes and device status codes *)

(** Modelled from the spec: the enumeration [Result] of the public header
    <OptiXToolkit/CuOmmBaking/CuOmmBaking.h>, which [Exception.h] includes
    and uses through [Result::SUCCESS] and [Result::ERROR_CUDA] only.  The
    spec: an enumerated set of outcome values, exactly one designated success
    value, all others denote distinct causes of failure, at minimum a generic
    device-API failure category.  The enumerators that the header under
    study never names are kept apart by their code. *)
Inductive Result : Type :=
  | SUCCESS
  | ERROR_CUDA
  | ERROR_OTHER (code : Z).

(** [cudaError_t] of <cuda_runtime.h>: a C enumeration, here its integer
    code; [cudaSuccess] is 0. *)
Inductive cudaError_t : Type := cudaError (code : Z).

Definition cudaSuccess : cudaError_t := cudaError 0.

(** [error != cudaSuccess] is [negb (cudaError_eqb error cudaSuccess)]. *)
Definition cudaError_eqb (a b : cudaError_t) : bool :=
  match a, b with cudaError x, cudaError y => Z.eqb x y end.

(** [CUresult] of <cuda.h>: a C enumeration, here its integer code;
    [CUDA_SUCCESS] is 0. *)
Inductive CUresult : Type := CUresult_code (code : Z).

Definition CUDA_SUCCESS : CUresult := CUresult_code 0.

Definition CUresult_eqb (a b : CUresult) : bool :=
  match a, b with CUresult_code x, CUresult_code y => Z.eqb x y end.

(** ** class Exception : public std::runtime_error *)

(** [what] is the message held by the [std::runtime_error] base. *)
Record Exception : Type := mkException {
  what : string;
  m_result : Result
}.

(** [explicit Exception( Result result, const char* msg )] *)
Definition Exception_c_str (result : Result) (msg : string) : Exception :=
  {| what := msg; m_result := result |}.

(** [explicit Exception( Result result, const std::string& msg )] *)
Definition Exception_string (result : Result) (msg : string) : Exception :=
  {| what := msg; m_result := result |}.

(** [Result getResult() const] *)
Definition getResult (e : Exception) : Result := m_result e.

(** ** The environment of the header *)

(** What the header takes from outside: the device behind the CUDA API, the
    two error-description functions, and the name under which the compiler
    reads the header itself (the value of [__FILE__] inside the header's own
    functions).

    [device_synchronize] is [cudaDeviceSynchronize()]: it reports a status
    and leaves the device in a new state.  [cuGetErrorString( result,
    &errorStr )] is taken on the codes the driver describes, where it stores
    a text; its own return value is dropped by the header.  For a code the
    driver does not describe it stores a null pointer, which the header
    feeds to the stream unchecked: that case is outside this model, and what
    is said below of the text of a [CUresult] check is said of described
    codes. *)
Class Environment : Type := {
  Device : Type;
  device_synchronize : Device -> cudaError_t * Device;
  cudaGetErrorString : cudaError_t -> string;
  cuGetErrorString : CUresult -> string;
  Exception_h_FILE : string
}.

(** The line of [Exception.h] on which the token [__LINE__] of
    [checkCudaError( cudaError_t, ... )] stands. *)
Definition Exception_h_LINE : N := 110.

(** [NDEBUG] undefined ([Debug]) or defined ([Release]). *)
Inductive Build : Type := Debug | Release.

(** ** Computations *)

(** How a statement ends: it completes, an [Exception] propagates out of it,
    or [std::terminate] has ended the process. *)
Inductive outcome (A : Type) : Type :=
  | Normal (a : A)
  | Throws (e : Exception)
  | Terminated.

Arguments Normal {A} a.
Arguments Throws {A} e.
Arguments Terminated {A}.

Section Checker.

Context {env : Environment}.

(** The state a check can touch: the device, and the text written to
    [std::cerr] so far. *)
Record world : Type := mkWorld {
  device : Device;
  cerr : string
}.

Definition M (A : Type) : Type := world -> outcome A * world.

Definition ret {A : Type} (a : A) : M A := fun w => (Normal a, w).

Definition bind {A B : Type} (c : M A) (k : A -> M B) : M B :=
  fun w =>
    match c w with
    | (Normal a, w') => k a w'
    | (Throws e, w') => (Throws e, w')
    | (Terminated, w') => (Terminated, w')
    end.

(** [throw e;] *)
Definition throw {A : Type} (e : Exception) : M A := fun w => (Throws e, w).

(** [std::terminate();] *)
Definition terminate {A : Type} : M A := fun w => (Terminated, w).

(** [std::cerr << s;] *)
Definition cerr_write (s : string) : M unit :=
  fun w => (Normal tt, {| device := device w; cerr := cerr w ++ s |}).

(** [cudaDeviceSynchronize()] as an expression. *)
Definition cudaDeviceSynchronize : M cudaError_t :=
  fun w =>
    let (e, d) := device_synchronize (device w) in
    (Normal e, {| device := d; cerr := cerr w |}).

End Checker.

Declare Scope check_scope.
Delimit Scope check_scope with check.

Notation "x <- c ;; k" := (bind c (fun x => k))
  (at level 61, c at next level, right associativity) : check_scope.
Notation "c ;; k" := (bind c (fun _ => k))
  (at level 61, right associativity) : check_scope.

Local Open Scope check_scope.

(** ** Assertions *)

Section Assertions.

Context {env : Environment}.

(** [Exception( ss.str().c_str() )], the construction that both macros write
    on their failing branch (lines 81 and 93).  The class declares
    [Exception( Result, const char* )] and [Exception( Result, const
    std::string& )] and no constructor that takes a message alone, so the
    header gives this construction no meaning.  It is left open: the macros
    are defined for any function from the message to an [Exception], and
    nothing is assumed of that function. *)
Variable Exception_of_message : string -> Exception.

(** [OMM_ASSERT( cond )], expanded at line [line] of [file]; [cond_text] is
    [#cond].  The condition is an expression, evaluated once.  Every piece
    fed to the stream is a literal of the call site, so [c_str()] returns
    the stream's text whole. *)
Definition OMM_ASSERT (cond : M bool) (cond_text file : string) (line : N) : M unit :=
  c <- cond ;;
  if negb c then
    let ss := file ++ " (" ++ decimal line ++ "): " ++ cond_text in
    throw (Exception_of_message ss)
  else ret tt.

(** [OMM_ASSERT_MSG( cond, msg )]: [msg] is an expression too, evaluated
    where the macro feeds it to the stream, that is on the failing branch
    only.  Its value may be a [std::string] with a NUL inside, which
    [c_str()] cuts the stream's text at. *)
Definition OMM_ASSERT_MSG (cond : M bool) (msg : M string)
    (cond_text file : string) (line : N) : M unit :=
  c <- cond ;;
  if negb c then
    m <- msg ;;
    let ss := m ++ ": " ++ file ++ " (" ++ decimal line ++ "): " ++ cond_text in
    throw (Exception_of_message (c_str ss))
  else ret tt.

End Assertions.

(** ** CUDA error-checking *)

Section CudaChecks.

Context {env : Environment}.

(** [inline void checkCudaError( cudaError_t error, const char* expr,
    const char* /*file*/, unsigned int /*line*/ )].  The two last parameters
    are unnamed; the text after the opening parenthesis is the literal next
    to [__FILE__], then [__LINE__], both of the header. *)
Definition checkCudaError_cudaError_t
    (error : cudaError_t) (expr : string) (_ : string) (_ : N) : M unit :=
  if negb (cudaError_eqb error cudaSuccess) then
    let ss := "CUDA call (" ++ expr ++ " ) failed with error: '"
              ++ cudaGetErrorString error ++ "' (" ++ Exception_h_FILE ++ ":"
              ++ decimal Exception_h_LINE ++ ")" ++ newline in
    throw (Exception_c_str ERROR_CUDA ss)
  else ret tt.

(** [inline void checkCudaErrorNoThrow( cudaError_t error, const char* expr,
    const char* file, unsigned int line ) noexcept] *)
Definition checkCudaErrorNoThrow_cudaError_t
    (error : cudaError_t) (expr file : string) (line : N) : M unit :=
  if negb (cudaError_eqb error cudaSuccess) then
    cerr_write ("CUDA call (" ++ expr ++ " ) failed with error: '"
                ++ cudaGetErrorString error ++ "' (" ++ file ++ ":"
                ++ decimal line ++ ")" ++ newline) ;;
    terminate
  else ret tt.

(** [inline void checkCudaError( CUresult result, const char* expr,
    const char* file, unsigned int line )] *)
Definition checkCudaError_CUresult
    (result : CUresult) (expr file : string) (line : N) : M unit :=
  if negb (CUresult_eqb result CUDA_SUCCESS) then
    let errorStr := cuGetErrorString result in
    let ss := "CUDA call (" ++ expr ++ " ) failed with error: '" ++ errorStr
              ++ "' (" ++ file ++ ":" ++ decimal line ++ ")" ++ newline in
    throw (Exception_c_str ERROR_CUDA ss)
  else ret tt.

(** [inline void checkCudaErrorNoThrow( CUresult result, const char* expr,
    const char* file, unsigned int line ) noexcept] *)
Definition checkCudaErrorNoThrow_CUresult
    (result : CUresult) (expr file : string) (line : N) : M unit :=
  if negb (CUresult_eqb result CUDA_SUCCESS) then
    let errorStr := cuGetErrorString result in
    cerr_write ("CUDA call (" ++ expr ++ " ) failed with error: '" ++ errorStr
                ++ "' (" ++ file ++ ":" ++ decimal line ++ ")" ++ newline) ;;
    terminate
  else ret tt.

(** The overload sets [checkCudaError] and [checkCudaErrorNoThrow]: the
    status types a call-site macro accepts, each with the pair of functions
    that overload resolution picks for it. *)
Class Checked (R : Type) : Type := {
  checkCudaError : R -> string -> string -> N -> M unit;
  checkCudaErrorNoThrow : R -> string -> string -> N -> M unit
}.

#[global] Instance Checked_cudaError_t : Checked cudaError_t := {|
  checkCudaError := checkCudaError_cudaError_t;
  checkCudaErrorNoThrow := checkCudaErrorNoThrow_cudaError_t
|}.

#[global] Instance Checked_CUresult : Checked CUresult := {|
  checkCudaError := checkCudaError_CUresult;
  checkCudaErrorNoThrow := checkCudaErrorNoThrow_CUresult
|}.

(** [OMM_CUDA_CHECK( call )], expanded at line [line] of [file]; [call_text]
    is [#call].  With [NDEBUG] undefined the first statement is followed by
    a check of [cudaDeviceSynchronize()], a [cudaError_t]. *)
Definition OMM_CUDA_CHECK {R : Type} `{Checked R} (b : Build)
    (call : M R) (call_text file : string) (line : N) : M unit :=
  match b with
  | Debug =>
      (r <- call ;; checkCudaError r call_text file line) ;;
      (e <- cudaDeviceSynchronize ;; checkCudaError_cudaError_t e call_text file line)
  | Release =>
      r <- call ;; checkCudaError r call_text file line
  end.

(** [OMM_CUDA_CHECK_NOTHROW( call )]. *)
Definition OMM_CUDA_CHECK_NOTHROW {R : Type} `{Checked R} (b : Build)
    (call : M R) (call_text file : string) (line : N) : M unit :=
  match b with
  | Debug =>
      (r <- call ;; checkCudaErrorNoThrow r call_text file line) ;;
      (e <- cudaDeviceSynchronize ;; checkCudaError_cudaError_t e call_text file line)
  | Release =>
      r <- call ;; checkCudaErrorNoThrow r call_text file line
  end.

End CudaChecks.

(** ** The diagnostic text, for the statements below *)

(** The text of a failed device call as the checking functions compose it,
    with the description, the file and the line left open. *)
Definition call_site_text (expr description file : string) (line : N) : string :=
  "CUDA call (" ++ expr ++ " ) failed with error: '" ++ description
  ++ "' (" ++ file ++ ":" ++ decimal line ++ ")" ++ newline.

(** The world after [cudaDeviceSynchronize()] has run in [w]. *)
Definition synchronized {env : Environment} (w : world) : world :=
  {| device := snd (device_synchronize (device w)); cerr := cerr w |}.

(** ** A device to run the checks on *)

Module Scenario.

(** A device in the manner of the CUDA runtime: work is queued without
    waiting, and the failure of queued work is reported by the next
    synchronization.  [pending] is the status the queued work will end in,
    [synchronizations] counts the calls of [cudaDeviceSynchronize]. *)
Record gpu : Type := mkGpu {
  pending : cudaError_t;
  synchronizations : nat
}.

Definition synchronize (d : gpu) : cudaError_t * gpu :=
  (pending d, {| pending := pending d; synchronizations := S (synchronizations d) |}).

Definition runtime_text (e : cudaError_t) : string :=
  match e with
  | cudaError 0 => "no error"
  | cudaError 1 => "invalid argument"
  | cudaError 700 => "an illegal memory access was encountered"
  | cudaError _ => "unrecognized error code"
  end.

Definition driver_text (r : CUresult) : string :=
  match r with
  | CUresult_code 0 => "no error"
  | CUresult_code 1 => "invalid argument"
  | CUresult_code _ => "unknown error"
  end.

Definition env : Environment := {|
  Device := gpu;
  device_synchronize := synchronize;
  cudaGetErrorString := runtime_text;
  cuGetErrorString := driver_text;
  Exception_h_FILE := "src/Util/Exception.h"
|}.

#[local] Existing Instance env.

(** An idle device and nothing written yet. *)
Definition start : world :=
  {| device := {| pending := cudaSuccess; synchronizations := 0 |}; cerr := "" |}.

(** A runtime call that is refused on the spot: [cudaErrorInvalidValue]. *)
Definition refused_call : M cudaError_t := ret (cudaError 1).

(** A launch that is accepted and goes wrong on the device later:
    the call reports [cudaSuccess], the queued work ends in
    [cudaErrorIllegalAddress]. *)
Definition faulty_launch : M cudaError_t :=
  fun w =>
    (Normal cudaSuccess,
     {| device := {| pending := cudaError 700;
                     synchronizations := synchronizations (device w) |};
        cerr := cerr w |}).

(** A message expression that must not be evaluated: it would end the
    process. *)
Definition fatal_message : M string :=
  cerr_write "message evaluated" ;; terminate.

(** The text expected of the throwing runtime check for the call
    [computeLaunch(...)] refused with [cudaErrorInvalidValue], whatever the
    call site. *)
Definition header_located_text : string :=
  "CUDA call (computeLaunch(...) ) failed with error: 'invalid argument' (src/Util/Exception.h:110)"
  ++ newline.

(** The device after [faulty_launch] and [n] synchronizations. *)
Definition faulted (n : nat) : world :=
  {| device := {| pending := cudaError 700; synchronizations := n |}; cerr := "" |}.

End Scenario.

(** * Properties *)

(** ** Text *)

Lemma append_assoc (a b c : string) : (a ++ b) ++ c = a ++ b ++ c.
Proof. induction a as [|x a IH]; simpl; [reflexivity | now rewrite IH]. Qed.

Lemma append_nil_r (a : string) : a ++ "" = a.
Proof. induction a as [|x a IH]; simpl; [reflexivity | now rewrite IH]. Qed.

Lemma starts_with_iff (p s : string) :
  starts_with p s = true <-> exists post, s = p ++ post.
Proof.
  revert s; induction p as [|a p IH]; intros s; simpl.
  - split; [intros _; now exists s | reflexivity].
  - destruct s as [|b s].
    + split; [discriminate | intros [post E]; discriminate E].
    + rewrite andb_true_iff, Ascii.eqb_eq, IH. split.
      * intros [-> [post ->]]. now exists post.
      * intros [post E]. injection E as -> ->. split; [reflexivity | now exists post].
Qed.

Lemma containsb_iff (needle hay : string) :
  containsb needle hay = true <-> contains needle hay.
Proof.
  unfold contains. induction hay as [|c hay IH]; simpl.
  - rewrite orb_false_r, starts_with_iff. split.
    + intros [post E]. now exists "", post.
    + intros [pre [post E]]. destruct pre as [|x pre]; [now exists post | discriminate E].
  - rewrite orb_true_iff, IH, starts_with_iff. split.
    + intros [[post E] | [pre [post E]]].
      * now exists "", post.
      * exists (String c pre), post. simpl. now rewrite E.
    + intros [pre [post E]]. destruct pre as [|x pre]; simpl in E.
      * left. now exists post.
      * right. injection E as _ E. now exists pre, post.
Qed.

Lemma not_contains (needle hay : string) :
  containsb needle hay = false -> ~ contains needle hay.
Proof.
  intros E C. apply containsb_iff in C. rewrite C in E. discriminate E.
Qed.

Lemma contains_here (needle post : string) : contains needle (needle ++ post).
Proof. now exists "", post. Qed.

Lemma contains_last (needle : string) : contains needle needle.
Proof. exists "", "". simpl. now rewrite append_nil_r. Qed.

Lemma contains_skip (pre needle hay : string) :
  contains needle hay -> contains needle (pre ++ hay).
Proof.
  intros [p [q ->]]. exists (pre ++ p), q. now rewrite append_assoc.
Qed.

(** Walks down a concatenation to the place where the needle stands. *)
Ltac find_text :=
  solve [ repeat first [ apply contains_here
                       | apply contains_last
                       | apply contains_skip ] ].

(** ** Status codes *)

Lemma cudaError_eqb_eq (a b : cudaError_t) : cudaError_eqb a b = true <-> a = b.
Proof.
  destruct a as [x], b as [y]; simpl. rewrite Z.eqb_eq.
  split; [intros -> | intros [= ->]]; reflexivity.
Qed.

Lemma CUresult_eqb_eq (a b : CUresult) : CUresult_eqb a b = true <-> a = b.
Proof.
  destruct a as [x], b as [y]; simpl. rewrite Z.eqb_eq.
  split; [intros -> | intros [= ->]]; reflexivity.
Qed.

Lemma cudaError_failure (e : cudaError_t) :
  e <> cudaSuccess -> negb (cudaError_eqb e cudaSuccess) = true.
Proof.
  intros N. destruct (cudaError_eqb e cudaSuccess) eqn:E; [|reflexivity].
  apply cudaError_eqb_eq in E. contradiction.
Qed.

Lemma CUresult_failure (r : CUresult) :
  r <> CUDA_SUCCESS -> negb (CUresult_eqb r CUDA_SUCCESS) = true.
Proof.
  intros N. destruct (CUresult_eqb r CUDA_SUCCESS) eqn:E; [|reflexivity].
  apply CUresult_eqb_eq in E. contradiction.
Qed.

(** ** The four checking functions, case by case *)

Section CheckFacts.

Context {env : Environment}.

Lemma call_site_text_contains (expr description file : string) (line : N) :
  contains expr (call_site_text expr description file line) /\
  contains file (call_site_text expr description file line) /\
  contains (decimal line) (call_site_text expr description file line).
Proof. unfold call_site_text. repeat split; find_text. Qed.

Lemma checkCudaError_cudaError_t_failure e expr file line w :
  e <> cudaSuccess ->
  checkCudaError_cudaError_t e expr file line w
  = (Throws (Exception_c_str ERROR_CUDA
       (call_site_text expr (cudaGetErrorString e) Exception_h_FILE Exception_h_LINE)), w).
Proof.
  intros F. unfold checkCudaError_cudaError_t.
  now rewrite (cudaError_failure e F).
Qed.

Lemma checkCudaError_CUresult_failure r expr file line w :
  r <> CUDA_SUCCESS ->
  checkCudaError_CUresult r expr file line w
  = (Throws (Exception_c_str ERROR_CUDA
       (call_site_text expr (cuGetErrorString r) file line)), w).
Proof.
  intros F. unfold checkCudaError_CUresult.
  now rewrite (CUresult_failure r F).
Qed.

Lemma checkCudaErrorNoThrow_cudaError_t_failure e expr file line w :
  e <> cudaSuccess ->
  checkCudaErrorNoThrow_cudaError_t e expr file line w
  = (Terminated,
     {| device := device w;
        cerr := cerr w ++ call_site_text expr (cudaGetErrorString e) file line |}).
Proof.
  intros F. unfold checkCudaErrorNoThrow_cudaError_t.
  now rewrite (cudaError_failure e F).
Qed.

Lemma checkCudaErrorNoThrow_CUresult_failure r expr file line w :
  r <> CUDA_SUCCESS ->
  checkCudaErrorNoThrow_CUresult r expr file line w
  = (Terminated,
     {| device := device w;
        cerr := cerr w ++ call_site_text expr (cuGetErrorString r) file line |}).
Proof.
  intros F. unfold checkCudaErrorNoThrow_CUresult.
  now rewrite (CUresult_failure r F).
Qed.

(** The [cudaError_t] overload of the throwing check never looks at the
    call site it is given. *)
Lemma checkCudaError_cudaError_t_call_site_unused e expr file line file' line' :
  checkCudaError_cudaError_t e expr file line
  = checkCudaError_cudaError_t e expr file' line'.
Proof. reflexivity. Qed.

(** The [CUresult] overload of the throwing check does what the
    specification asks of both. *)
Lemma checkCudaError_CUresult_reports_call_site r expr file line w :
  r <> CUDA_SUCCESS ->
  exists x,
    checkCudaError_CUresult r expr file line w = (Throws x, w) /\
    getResult x = ERROR_CUDA /\
    contains expr (what x) /\ contains file (what x) /\
    contains (decimal line) (what x).
Proof.
  intros F. eexists. split; [now apply checkCudaError_CUresult_failure|].
  split; [reflexivity|]. apply call_site_text_contains.
Qed.

(** Sequencing, as the macros use it. *)
Lemma bind_normal {A B} (c : M A) (k : A -> M B) w a w' :
  c w = (Normal a, w') -> bind c k w = k a w'.
Proof. intros E. unfold bind. now rewrite E. Qed.

Lemma bind_throws {A B} (c : M A) (k : A -> M B) w x w' :
  c w = (Throws x, w') -> bind c k w = (Throws x, w').
Proof. intros E. unfold bind. now rewrite E. Qed.

Lemma bind_terminated {A B} (c : M A) (k : A -> M B) w w' :
  c w = (Terminated, w') -> bind c k w = (Terminated, w').
Proof. intros E. unfold bind. now rewrite E. Qed.

Lemma cudaDeviceSynchronize_run w :
  cudaDeviceSynchronize w
  = (Normal (fst (device_synchronize (device w))),
     {| device := snd (device_synchronize (device w)); cerr := cerr w |}).
Proof.
  unfold cudaDeviceSynchronize. now destruct (device_synchronize (device w)).
Qed.

End CheckFacts.

(** ** The checks on a device status *)

Section DeviceCallClaims.

Context {env : Environment}.

(** C3.  On the success sentinel each of the four checking functions is a
    no-op: it returns normally, nothing is thrown, the process goes on, and
    the world (device and [std::cerr]) is the one it was given. *)
Theorem checks_are_noops_on_success (expr file : string) (line : N) (w : world) :
  checkCudaError_cudaError_t cudaSuccess expr file line w = (Normal tt, w) /\
  checkCudaErrorNoThrow_cudaError_t cudaSuccess expr file line w = (Normal tt, w) /\
  checkCudaError_CUresult CUDA_SUCCESS expr file line w = (Normal tt, w) /\
  checkCudaErrorNoThrow_CUresult CUDA_SUCCESS expr file line w = (Normal tt, w).
Proof. repeat split. Qed.

(** On a status other than the success sentinel both overloads of
    [checkCudaErrorNoThrow] throw nothing and end in [std::terminate], having
    appended to [std::cerr] a text that contains the call expression, the
    file and the line of the call site; so does [OMM_CUDA_CHECK_NOTHROW] in
    both builds when that status is the one the wrapped call returned. *)
Lemma nothrow_check_of_failed_call_terminates :
  (forall (e : cudaError_t) expr file line w,
      e <> cudaSuccess ->
      exists m,
        checkCudaErrorNoThrow_cudaError_t e expr file line w
        = (Terminated, {| device := device w; cerr := cerr w ++ m |}) /\
        contains expr m /\ contains file m /\ contains (decimal line) m) /\
  (forall (r : CUresult) expr file line w,
      r <> CUDA_SUCCESS ->
      exists m,
        checkCudaErrorNoThrow_CUresult r expr file line w
        = (Terminated, {| device := device w; cerr := cerr w ++ m |}) /\
        contains expr m /\ contains file m /\ contains (decimal line) m) /\
  (forall (b : Build) (call : M cudaError_t) call_text file line w e w',
      call w = (Normal e, w') -> e <> cudaSuccess ->
      exists m,
        OMM_CUDA_CHECK_NOTHROW b call call_text file line w
        = (Terminated, {| device := device w'; cerr := cerr w' ++ m |}) /\
        contains call_text m /\ contains file m /\ contains (decimal line) m) /\
  (forall (b : Build) (call : M CUresult) call_text file line w r w',
      call w = (Normal r, w') -> r <> CUDA_SUCCESS ->
      exists m,
        OMM_CUDA_CHECK_NOTHROW b call call_text file line w
        = (Terminated, {| device := device w'; cerr := cerr w' ++ m |}) /\
        contains call_text m /\ contains file m /\ contains (decimal line) m).
Proof.
  split; [|split; [|split]].
  - intros e expr file line w F. eexists. split.
    + now apply checkCudaErrorNoThrow_cudaError_t_failure.
    + apply call_site_text_contains.
  - intros r expr file line w F. eexists. split.
    + now apply checkCudaErrorNoThrow_CUresult_failure.
    + apply call_site_text_contains.
  - intros b call call_text file line w e w' C F.
    exists (call_site_text call_text (cudaGetErrorString e) file line). split.
    + pose proof (checkCudaErrorNoThrow_cudaError_t_failure e call_text file line w' F) as T.
      destruct b; unfold OMM_CUDA_CHECK_NOTHROW.
      * apply bind_terminated. now rewrite (bind_normal _ _ _ _ _ C).
      * now rewrite (bind_normal _ _ _ _ _ C).
    + apply call_site_text_contains.
  - intros b call call_text file line w r w' C F.
    exists (call_site_text call_text (cuGetErrorString r) file line). split.
    + pose proof (checkCudaErrorNoThrow_CUresult_failure r call_text file line w' F) as T.
      destruct b; unfold OMM_CUDA_CHECK_NOTHROW.
      * apply bind_terminated. now rewrite (bind_normal _ _ _ _ _ C).
      * now rewrite (bind_normal _ _ _ _ _ C).
    + apply call_site_text_contains.
Qed.

End DeviceCallClaims.

(** ** The call-site macros *)

Section CallSiteClaims.

Context {env : Environment}.

(** What the throwing macro does once the wrapped call has returned, for a
    call of either status type. *)
Lemma OMM_CUDA_CHECK_Release_run {R} {H : Checked R} (call : M R) call_text file line w r w' :
  call w = (Normal r, w') ->
  OMM_CUDA_CHECK Release call call_text file line w
  = checkCudaError r call_text file line w'.
Proof. intros C. unfold OMM_CUDA_CHECK. now rewrite (bind_normal _ _ _ _ _ C). Qed.

Lemma OMM_CUDA_CHECK_Debug_passed {R} {H : Checked R} (call : M R) call_text file line w r w' :
  call w = (Normal r, w') ->
  checkCudaError r call_text file line w' = (Normal tt, w') ->
  OMM_CUDA_CHECK Debug call call_text file line w
  = checkCudaError_cudaError_t (fst (device_synchronize (device w')))
      call_text file line (synchronized w').
Proof.
  intros C P. unfold OMM_CUDA_CHECK.
  rewrite (bind_normal _ _ w tt w').
  - now rewrite (bind_normal _ _ _ _ _ (cudaDeviceSynchronize_run w')).
  - now rewrite (bind_normal _ _ _ _ _ C).
Qed.

Lemma OMM_CUDA_CHECK_Debug_thrown {R} {H : Checked R} (call : M R) call_text file line w r w' x :
  call w = (Normal r, w') ->
  checkCudaError r call_text file line w' = (Throws x, w') ->
  OMM_CUDA_CHECK Debug call call_text file line w = (Throws x, w').
Proof.
  intros C P. unfold OMM_CUDA_CHECK.
  apply bind_throws. now rewrite (bind_normal _ _ _ _ _ C).
Qed.

Lemma OMM_CUDA_CHECK_NOTHROW_Debug_passed {R} {H : Checked R}
    (call : M R) call_text file line w r w' :
  call w = (Normal r, w') ->
  checkCudaErrorNoThrow r call_text file line w' = (Normal tt, w') ->
  OMM_CUDA_CHECK_NOTHROW Debug call call_text file line w
  = checkCudaError_cudaError_t (fst (device_synchronize (device w')))
      call_text file line (synchronized w').
Proof.
  intros C P. unfold OMM_CUDA_CHECK_NOTHROW.
  rewrite (bind_normal _ _ w tt w').
  - now rewrite (bind_normal _ _ _ _ _ (cudaDeviceSynchronize_run w')).
  - now rewrite (bind_normal _ _ _ _ _ C).
Qed.

(** C4, as the code has it.  With [NDEBUG] undefined, [OMM_CUDA_CHECK] on a
    call that returned the success sentinel goes on with
    [cudaDeviceSynchronize()], run in the world the call left, and ends as
    the throwing [checkCudaError] ends on the status of that
    synchronization.  On a call that returned a failure the first check
    throws and the device stays as the call left it: no synchronization.
    With [NDEBUG] defined the macro ends as the check of the call's own
    status ends and the device stays as the call left it, whatever the
    status. *)
Theorem debug_check_synchronizes_after_a_passed_check :
  (forall (call : M cudaError_t) call_text file line w w',
      call w = (Normal cudaSuccess, w') ->
      OMM_CUDA_CHECK Debug call call_text file line w
      = checkCudaError_cudaError_t (fst (device_synchronize (device w')))
          call_text file line (synchronized w')) /\
  (forall (call : M CUresult) call_text file line w w',
      call w = (Normal CUDA_SUCCESS, w') ->
      OMM_CUDA_CHECK Debug call call_text file line w
      = checkCudaError_cudaError_t (fst (device_synchronize (device w')))
          call_text file line (synchronized w')) /\
  (forall (call : M cudaError_t) call_text file line w e w',
      call w = (Normal e, w') -> e <> cudaSuccess ->
      exists x, OMM_CUDA_CHECK Debug call call_text file line w = (Throws x, w')) /\
  (forall (call : M CUresult) call_text file line w r w',
      call w = (Normal r, w') -> r <> CUDA_SUCCESS ->
      exists x, OMM_CUDA_CHECK Debug call call_text file line w = (Throws x, w')) /\
  (forall (call : M cudaError_t) call_text file line w e w',
      call w = (Normal e, w') ->
      OMM_CUDA_CHECK Release call call_text file line w
      = checkCudaError_cudaError_t e call_text file line w' /\
      device (snd (OMM_CUDA_CHECK Release call call_text file line w)) = device w') /\
  (forall (call : M CUresult) call_text file line w r w',
      call w = (Normal r, w') ->
      OMM_CUDA_CHECK Release call call_text file line w
      = checkCudaError_CUresult r call_text file line w' /\
      device (snd (OMM_CUDA_CHECK Release call call_text file line w)) = device w').
Proof.
  repeat apply conj.
  - intros call call_text file line w w' C.
    now apply (OMM_CUDA_CHECK_Debug_passed call call_text file line w cudaSuccess w').
  - intros call call_text file line w w' C.
    now apply (OMM_CUDA_CHECK_Debug_passed call call_text file line w CUDA_SUCCESS w').
  - intros call call_text file line w e w' C F. eexists.
    apply (OMM_CUDA_CHECK_Debug_thrown call call_text file line w e w' _ C).
    now apply checkCudaError_cudaError_t_failure.
  - intros call call_text file line w r w' C F. eexists.
    apply (OMM_CUDA_CHECK_Debug_thrown call call_text file line w r w' _ C).
    now apply checkCudaError_CUresult_failure.
  - intros call call_text file line w e w' C.
    rewrite (OMM_CUDA_CHECK_Release_run call call_text file line w e w' C).
    split; [reflexivity|]. simpl. unfold checkCudaError_cudaError_t.
    now destruct (negb (cudaError_eqb e cudaSuccess)).
  - intros call call_text file line w r w' C.
    rewrite (OMM_CUDA_CHECK_Release_run call call_text file line w r w' C).
    split; [reflexivity|]. simpl. unfold checkCudaError_CUresult.
    now destruct (negb (CUresult_eqb r CUDA_SUCCESS)).
Qed.

(** C10.  With [NDEBUG] undefined, [OMM_CUDA_CHECK_NOTHROW] hands the status
    of its [cudaDeviceSynchronize()] to the throwing [checkCudaError]: when
    the wrapped call returned the success sentinel and the synchronization
    reports a failure, the macro throws an [Exception] carrying
    [Result::ERROR_CUDA]; the process is not terminated and nothing is
    written to [std::cerr]. *)
Theorem debug_nothrow_macro_throws_on_failed_synchronization
    (call_text file : string) (line : N) (w w' : world) :
  fst (device_synchronize (device w')) <> cudaSuccess ->
  (forall call : M cudaError_t,
      call w = (Normal cudaSuccess, w') ->
      OMM_CUDA_CHECK_NOTHROW Debug call call_text file line w
      = checkCudaError_cudaError_t (fst (device_synchronize (device w')))
          call_text file line (synchronized w') /\
      exists x,
        OMM_CUDA_CHECK_NOTHROW Debug call call_text file line w
        = (Throws x, synchronized w') /\
        getResult x = ERROR_CUDA) /\
  (forall call : M CUresult,
      call w = (Normal CUDA_SUCCESS, w') ->
      OMM_CUDA_CHECK_NOTHROW Debug call call_text file line w
      = checkCudaError_cudaError_t (fst (device_synchronize (device w')))
          call_text file line (synchronized w') /\
      exists x,
        OMM_CUDA_CHECK_NOTHROW Debug call call_text file line w
        = (Throws x, synchronized w') /\
        getResult x = ERROR_CUDA).
Proof.
  intros F. split; intros call C.
  - rewrite (OMM_CUDA_CHECK_NOTHROW_Debug_passed (H := Checked_cudaError_t)
               call call_text file line w cudaSuccess w' C eq_refl).
    split; [reflexivity|]. eexists.
    split; [now apply checkCudaError_cudaError_t_failure | reflexivity].
  - rewrite (OMM_CUDA_CHECK_NOTHROW_Debug_passed (H := Checked_CUresult)
               call call_text file line w CUDA_SUCCESS w' C eq_refl).
    split; [reflexivity|]. eexists.
    split; [now apply checkCudaError_cudaError_t_failure | reflexivity].
Qed.

End CallSiteClaims.

(** ** The exception object *)

(** C9.  An [Exception] built from a result code [r] and a message, through
    either declared constructor, answers [r] to [getResult], at the first
    reading and at the second: the two readings agree. *)
Theorem getResult_reads_the_stored_code_each_time (r : Result) (m : string) :
  (let e := Exception_c_str r m in
   let first := getResult e in
   let second := getResult e in
   first = r /\ second = r /\ first = second) /\
  (let e := Exception_string r m in
   let first := getResult e in
   let second := getResult e in
   first = r /\ second = r /\ first = second).
Proof. repeat split. Qed.

(** ** The assertion macros *)

Section AssertionClaims.

Context {env : Environment}.

(** On a condition that evaluates to false each macro composes its text and
    hands it to the construction it names; the outcome is whatever that
    construction builds. *)
Lemma OMM_ASSERT_failed (construct : string -> Exception)
    (cond : M bool) cond_text file line w w' :
  cond w = (Normal false, w') ->
  OMM_ASSERT construct cond cond_text file line w
  = (Throws (construct (file ++ " (" ++ decimal line ++ "): " ++ cond_text)), w').
Proof. intros C. unfold OMM_ASSERT. now rewrite (bind_normal _ _ _ _ _ C). Qed.

Lemma OMM_ASSERT_MSG_failed (construct : string -> Exception)
    (cond : M bool) (msg : M string) cond_text file line w w' m w'' :
  cond w = (Normal false, w') ->
  msg w' = (Normal m, w'') ->
  OMM_ASSERT_MSG construct cond msg cond_text file line w
  = (Throws (construct
       (c_str (m ++ ": " ++ file ++ " (" ++ decimal line ++ "): " ++ cond_text))), w'').
Proof.
  intros C S. unfold OMM_ASSERT_MSG.
  rewrite (bind_normal _ _ _ _ _ C). simpl.
  now rewrite (bind_normal _ _ _ _ _ S).
Qed.

(** C8.  A condition that evaluates to true makes both macros complete
    normally in the world the condition left: nothing is thrown, and the
    message expression of [OMM_ASSERT_MSG] is not evaluated, whatever it
    would do.  This holds whatever the construction on the failing branch
    is. *)
Theorem assertions_pass_silently (construct : string -> Exception) (cond : M bool) w w' :
  cond w = (Normal true, w') ->
  (forall cond_text file line,
      OMM_ASSERT construct cond cond_text file line w = (Normal tt, w')) /\
  (forall (msg : M string) cond_text file line,
      OMM_ASSERT_MSG construct cond msg cond_text file line w = (Normal tt, w')).
Proof.
  intros C. split; intros.
  - unfold OMM_ASSERT. now rewrite (bind_normal _ _ _ _ _ C).
  - unfold OMM_ASSERT_MSG. now rewrite (bind_normal _ _ _ _ _ C).
Qed.

End AssertionClaims.

(** ** Runs on the scenario device *)

Section Runs.

Import Scenario.

#[local] Existing Instance Scenario.env.

(** C1, at the call [computeLaunch(...)] on line 42 of [build.cpp] that
    returns [cudaErrorInvalidValue].  The [cudaError_t] overload of
    [checkCudaError] throws an [Exception] carrying [Result::ERROR_CUDA]
    whose message holds the call expression, but names the header and line
    110 of the header: neither [build.cpp] nor [42] occurs in it.  The
    [CUresult] overload, on the same call site, names both. *)
Theorem throwing_runtime_check_names_the_header :
  checkCudaError_cudaError_t (cudaError 1) "computeLaunch(...)" "build.cpp" 42 start
  = (Throws (Exception_c_str ERROR_CUDA header_located_text), start) /\
  contains "computeLaunch(...)" header_located_text /\
  ~ contains "build.cpp" header_located_text /\
  ~ contains "42" header_located_text /\
  (exists x,
      checkCudaError_CUresult (CUresult_code 1) "computeLaunch(...)" "build.cpp" 42 start
      = (Throws x, start) /\
      getResult x = ERROR_CUDA /\
      contains "computeLaunch(...)" (what x) /\
      contains "build.cpp" (what x) /\
      contains "42" (what x)).
Proof.
  split; [reflexivity|].
  split; [apply containsb_iff; reflexivity|].
  split; [apply not_contains; reflexivity|].
  split; [apply not_contains; reflexivity|].
  apply (checkCudaError_CUresult_reports_call_site (CUresult_code 1)).
  discriminate.
Qed.

(** C2, at a launch on line 7 of [cleanup.cpp] that returns [cudaSuccess]
    and fails on the device, in a build with [NDEBUG] undefined.
    [OMM_CUDA_CHECK_NOTHROW] throws an [Exception]: the process is not
    terminated and [std::cerr] has received nothing.  With [NDEBUG] defined
    the same call site completes normally. *)
Theorem debug_nothrow_macro_throws_at_faulty_launch :
  faulty_launch start
  = (Normal cudaSuccess, faulted 0) /\
  (exists x,
      OMM_CUDA_CHECK_NOTHROW Debug faulty_launch "launch( stream )" "cleanup.cpp" 7 start
      = (Throws x, faulted 1)) /\
  fst (OMM_CUDA_CHECK_NOTHROW Debug faulty_launch "launch( stream )" "cleanup.cpp" 7 start)
  <> Terminated /\
  fst (OMM_CUDA_CHECK_NOTHROW Release faulty_launch "launch( stream )" "cleanup.cpp" 7 start)
  = Normal tt.
Proof.
  split; [reflexivity|].
  split; [eexists; reflexivity|].
  split; [discriminate | reflexivity].
Qed.

(** C4 as stated fails at a call that is refused: [OMM_CUDA_CHECK] with
    [NDEBUG] undefined throws at the check of the call itself, and the
    device has seen no synchronization: its state is the one the call left,
    not the one a synchronization leaves. *)
Lemma debug_check_of_refused_call_never_synchronizes :
  refused_call start = (Normal (cudaError 1), start) /\
  (exists x,
      OMM_CUDA_CHECK Debug refused_call "computeLaunch(...)" "build.cpp" 42 start
      = (Throws x, start)) /\
  synchronizations
    (device (snd (OMM_CUDA_CHECK Debug refused_call "computeLaunch(...)" "build.cpp" 42 start)))
  = 0 /\
  device (snd (OMM_CUDA_CHECK Debug refused_call "computeLaunch(...)" "build.cpp" 42 start))
  <> snd (device_synchronize (device start)).
Proof.
  split; [reflexivity|].
  split; [eexists; reflexivity|].
  split; [reflexivity | discriminate].
Qed.

(** The amended C4 at a launch that is accepted and fails on the device: the
    debug macro synchronizes once and checks the status that comes back. *)
Lemma debug_check_synchronizes_at_faulty_launch :
  faulty_launch start = (Normal cudaSuccess, faulted 0) /\
  OMM_CUDA_CHECK Debug faulty_launch "launch( stream )" "bake.cpp" 42 start
  = checkCudaError_cudaError_t (cudaError 700) "launch( stream )" "bake.cpp" 42 (faulted 1).
Proof.
  split; [reflexivity|].
  exact (proj1 debug_check_synchronizes_after_a_passed_check
           faulty_launch "launch( stream )" "bake.cpp" 42%N start (faulted 0) eq_refl).
Defined.

(** C10 at the same launch, in cleanup code. *)
Lemma debug_nothrow_macro_at_faulty_launch :
  fst (device_synchronize (device (faulted 0))) <> cudaSuccess /\
  faulty_launch start = (Normal cudaSuccess, faulted 0) /\
  exists x,
    OMM_CUDA_CHECK_NOTHROW Debug faulty_launch "launch( stream )" "cleanup.cpp" 7 start
    = (Throws x, faulted 1) /\
    getResult x = ERROR_CUDA.
Proof.
  assert (F : fst (device_synchronize (device (faulted 0))) <> cudaSuccess) by discriminate.
  split; [exact F|]. split; [reflexivity|].
  exact (proj2 (proj1 (debug_nothrow_macro_throws_on_failed_synchronization
                         "launch( stream )" "cleanup.cpp" 7%N start (faulted 0) F)
                  faulty_launch eq_refl)).
Defined.

(** C8 at a condition that holds, with a message expression that would end
    the process if it were evaluated; the failing branch, which is not
    taken, is given a declared constructor to stand in. *)
Lemma assertions_pass_silently_at_true :
  ret true start = (Normal true, start) /\
  OMM_ASSERT (Exception_c_str (ERROR_OTHER 2)) (ret true) "size > 0" "bake.cpp" 77 start
  = (Normal tt, start) /\
  OMM_ASSERT_MSG (Exception_c_str (ERROR_OTHER 2)) (ret true) fatal_message
    "size > 0" "bake.cpp" 77 start
  = (Normal tt, start).
Proof.
  split; [reflexivity|].
  destruct (assertions_pass_silently (Exception_c_str (ERROR_OTHER 2))
              (ret true) start start eq_refl) as [P Q].
  split; [apply P | apply Q].
Defined.

End Runs.

(** * Further properties of the header *)

(** ** More on text *)

Lemma length_append (a b : string) :
  String.length (a ++ b) = String.length a + String.length b.
Proof. induction a as [|x a IH]; simpl; [reflexivity | now rewrite IH]. Qed.

Lemma append_cancel_l (a x y : string) : a ++ x = a ++ y -> x = y.
Proof.
  induction a as [|c a IH]; simpl; intros E; [exact E|].
  injection E as E. now apply IH.
Qed.

Lemma append_cancel_r (s x y : string) : x ++ s = y ++ s -> x = y.
Proof.
  revert y. induction x as [|c x IH]; intros [|d y] E; simpl in E.
  - reflexivity.
  - apply (f_equal String.length) in E. simpl in E. rewrite length_append in E. lia.
  - apply (f_equal String.length) in E. simpl in E. rewrite length_append in E. lia.
  - injection E as -> E. f_equal. now apply IH.
Qed.

(** The decimal digits of a line number determine it. *)
Lemma decimal_inj (n m : N) : decimal n = decimal m -> n = m.
Proof.
  unfold decimal. intros E.
  apply DecimalN.Unsigned.to_uint_inj.
  apply (f_equal NilEmpty.uint_of_string) in E.
  rewrite !NilEmpty.usu in E. now injection E.
Qed.

(** ** The checking functions on every status *)

Section CheckCoverage.

Context {env : Environment}.

Lemma cudaError_success_or_failure (e : cudaError_t) :
  {e = cudaSuccess} + {e <> cudaSuccess}.
Proof.
  destruct (cudaError_eqb e cudaSuccess) eqn:E.
  - left. now apply cudaError_eqb_eq.
  - right. intros S. apply cudaError_eqb_eq in S. rewrite S in E. discriminate E.
Qed.

Lemma CUresult_success_or_failure (r : CUresult) :
  {r = CUDA_SUCCESS} + {r <> CUDA_SUCCESS}.
Proof.
  destruct (CUresult_eqb r CUDA_SUCCESS) eqn:E.
  - left. now apply CUresult_eqb_eq.
  - right. intros S. apply CUresult_eqb_eq in S. rewrite S in E. discriminate E.
Qed.

(** X1.  Whatever the status, no checking function touches the device; the
    throwing checks leave the whole world as it was, [std::cerr] included,
    and the non-throwing checks only append to [std::cerr]. *)
Theorem checks_keep_the_device_and_only_append
    (e : cudaError_t) (r : CUresult) (expr file : string) (line : N) (w : world) :
  snd (checkCudaError_cudaError_t e expr file line w) = w /\
  snd (checkCudaError_CUresult r expr file line w) = w /\
  device (snd (checkCudaErrorNoThrow_cudaError_t e expr file line w)) = device w /\
  device (snd (checkCudaErrorNoThrow_CUresult r expr file line w)) = device w /\
  (exists m, cerr (snd (checkCudaErrorNoThrow_cudaError_t e expr file line w)) = cerr w ++ m) /\
  (exists m, cerr (snd (checkCudaErrorNoThrow_CUresult r expr file line w)) = cerr w ++ m).
Proof.
  unfold checkCudaError_cudaError_t, checkCudaError_CUresult,
    checkCudaErrorNoThrow_cudaError_t, checkCudaErrorNoThrow_CUresult.
  destruct (negb (cudaError_eqb e cudaSuccess)), (negb (CUresult_eqb r CUDA_SUCCESS));
    simpl; repeat split;
    first [ eexists; reflexivity | exists ""; symmetry; apply append_nil_r ].
Qed.

(** X2.  A check completes normally exactly on the success sentinel: every
    other code of the status type counts as a failure, in all four
    functions. *)
Theorem checks_pass_exactly_on_the_sentinel
    (e : cudaError_t) (r : CUresult) (expr file : string) (line : N) (w : world) :
  (fst (checkCudaError_cudaError_t e expr file line w) = Normal tt <-> e = cudaSuccess) /\
  (fst (checkCudaErrorNoThrow_cudaError_t e expr file line w) = Normal tt <-> e = cudaSuccess) /\
  (fst (checkCudaError_CUresult r expr file line w) = Normal tt <-> r = CUDA_SUCCESS) /\
  (fst (checkCudaErrorNoThrow_CUresult r expr file line w) = Normal tt <-> r = CUDA_SUCCESS).
Proof.
  split; [|split; [|split]].
  - destruct (cudaError_success_or_failure e) as [-> | F]; [now split|].
    rewrite (checkCudaError_cudaError_t_failure e expr file line w F).
    simpl. split; [intros X; discriminate X | intros X; contradiction].
  - destruct (cudaError_success_or_failure e) as [-> | F]; [now split|].
    rewrite (checkCudaErrorNoThrow_cudaError_t_failure e expr file line w F).
    simpl. split; [intros X; discriminate X | intros X; contradiction].
  - destruct (CUresult_success_or_failure r) as [-> | F]; [now split|].
    rewrite (checkCudaError_CUresult_failure r expr file line w F).
    simpl. split; [intros X; discriminate X | intros X; contradiction].
  - destruct (CUresult_success_or_failure r) as [-> | F]; [now split|].
    rewrite (checkCudaErrorNoThrow_CUresult_failure r expr file line w F).
    simpl. split; [intros X; discriminate X | intros X; contradiction].
Qed.

(** X3.  Whatever the status, the two functions declared [noexcept] let no
    [Exception] out, and the two throwing functions never end the
    process. *)
Theorem noexcept_checks_never_throw_and_throwing_checks_never_terminate
    (e : cudaError_t) (r : CUresult) (expr file : string) (line : N) (w : world) :
  (forall x, fst (checkCudaErrorNoThrow_cudaError_t e expr file line w) <> Throws x) /\
  (forall x, fst (checkCudaErrorNoThrow_CUresult r expr file line w) <> Throws x) /\
  fst (checkCudaError_cudaError_t e expr file line w) <> Terminated /\
  fst (checkCudaError_CUresult r expr file line w) <> Terminated.
Proof.
  unfold checkCudaError_cudaError_t, checkCudaError_CUresult,
    checkCudaErrorNoThrow_cudaError_t, checkCudaErrorNoThrow_CUresult.
  destruct (negb (cudaError_eqb e cudaSuccess)), (negb (CUresult_eqb r CUDA_SUCCESS));
    simpl; repeat split; intros; discriminate.
Qed.

(** X4.  On a failed driver status the two [CUresult] overloads compose one
    and the same text for one call site: the message of the [Exception] the
    throwing check raises is, character for character, what the
    non-throwing check appends to [std::cerr]. *)
Theorem driver_checks_compose_the_same_text
    (r : CUresult) (expr file : string) (line : N) (w : world) :
  r <> CUDA_SUCCESS ->
  exists x,
    checkCudaError_CUresult r expr file line w = (Throws x, w) /\
    checkCudaErrorNoThrow_CUresult r expr file line w
    = (Terminated, {| device := device w; cerr := cerr w ++ what x |}).
Proof.
  intros F. eexists. split.
  - now apply checkCudaError_CUresult_failure.
  - now apply checkCudaErrorNoThrow_CUresult_failure.
Qed.

(** X5.  On a failed runtime status the throwing [cudaError_t] overload
    raises, for any call site, the text that the non-throwing overload
    writes when it is called for line 110 of the header itself. *)
Theorem runtime_checks_agree_at_the_header_location
    (e : cudaError_t) (expr file : string) (line : N) (w : world) :
  e <> cudaSuccess ->
  exists x,
    checkCudaError_cudaError_t e expr file line w = (Throws x, w) /\
    checkCudaErrorNoThrow_cudaError_t e expr Exception_h_FILE 110 w
    = (Terminated, {| device := device w; cerr := cerr w ++ what x |}).
Proof.
  intros F. eexists. split.
  - now apply checkCudaError_cudaError_t_failure.
  - now apply checkCudaErrorNoThrow_cudaError_t_failure.
Qed.

Lemma call_site_text_line (expr description file : string) (l1 l2 : N) :
  call_site_text expr description file l1 = call_site_text expr description file l2 ->
  l1 = l2.
Proof.
  unfold call_site_text. intros E.
  apply (append_cancel_l "CUDA call (") in E.
  apply (append_cancel_l expr) in E.
  apply (append_cancel_l " ) failed with error: '") in E.
  apply (append_cancel_l description) in E.
  apply (append_cancel_l "' (") in E.
  apply (append_cancel_l file) in E.
  apply (append_cancel_l ":") in E.
  apply (append_cancel_r (")" ++ newline)) in E.
  now apply decimal_inj.
Qed.

(** X14.  The line of the call site can be read back from what the
    non-throwing runtime check writes: with the failed status, the call
    expression and the file the same, [checkCudaErrorNoThrow( cudaError_t )]
    ends alike at two lines only when the lines are equal. *)
Theorem runtime_nothrow_check_tells_lines_apart
    (e : cudaError_t) (expr file : string) (l1 l2 : N) (w : world) :
  e <> cudaSuccess ->
  checkCudaErrorNoThrow_cudaError_t e expr file l1 w
  = checkCudaErrorNoThrow_cudaError_t e expr file l2 w ->
  l1 = l2.
Proof.
  intros F E.
  rewrite !(checkCudaErrorNoThrow_cudaError_t_failure e expr file _ w F) in E.
  apply (f_equal (fun p => cerr (snd p))) in E.
  change (cerr w ++ call_site_text expr (cudaGetErrorString e) file l1
          = cerr w ++ call_site_text expr (cudaGetErrorString e) file l2) in E.
  apply (append_cancel_l (cerr w)) in E.
  now apply call_site_text_line in E.
Qed.

(** X16.  Every failed status makes the throwing check raise an [Exception]
    that answers [Result::ERROR_CUDA] to [getResult], from either
    overload. *)
Theorem device_failures_carry_ERROR_CUDA :
  (forall (e : cudaError_t) expr file line w,
      e <> cudaSuccess ->
      exists x,
        checkCudaError_cudaError_t e expr file line w = (Throws x, w) /\
        getResult x = ERROR_CUDA) /\
  (forall (r : CUresult) expr file line w,
      r <> CUDA_SUCCESS ->
      exists x,
        checkCudaError_CUresult r expr file line w = (Throws x, w) /\
        getResult x = ERROR_CUDA).
Proof.
  split.
  - intros e expr file line w F. eexists.
    split; [now apply checkCudaError_cudaError_t_failure | reflexivity].
  - intros r expr file line w F. eexists.
    split; [now apply checkCudaError_CUresult_failure | reflexivity].
Qed.

End CheckCoverage.

(** ** The call-site macros on every path *)

Section MacroCoverage.

Context {env : Environment}.

Lemma OMM_CUDA_CHECK_NOTHROW_Release_run {R} {H : Checked R}
    (call : M R) call_text file line w r w' :
  call w = (Normal r, w') ->
  OMM_CUDA_CHECK_NOTHROW Release call call_text file line w
  = checkCudaErrorNoThrow r call_text file line w'.
Proof. intros C. unfold OMM_CUDA_CHECK_NOTHROW. now rewrite (bind_normal _ _ _ _ _ C). Qed.

Lemma OMM_CUDA_CHECK_NOTHROW_terminated {R} {H : Checked R}
    (b : Build) (call : M R) call_text file line w r w' w2 :
  call w = (Normal r, w') ->
  checkCudaErrorNoThrow r call_text file line w' = (Terminated, w2) ->
  OMM_CUDA_CHECK_NOTHROW b call call_text file line w = (Terminated, w2).
Proof.
  intros C T. destruct b; unfold OMM_CUDA_CHECK_NOTHROW.
  - apply bind_terminated. now rewrite (bind_normal _ _ _ _ _ C).
  - now rewrite (bind_normal _ _ _ _ _ C).
Qed.

Lemma OMM_CUDA_CHECK_thrown {R} {H : Checked R}
    (b : Build) (call : M R) call_text file line w r w' x :
  call w = (Normal r, w') ->
  checkCudaError r call_text file line w' = (Throws x, w') ->
  OMM_CUDA_CHECK b call call_text file line w = (Throws x, w').
Proof.
  intros C T. destruct b.
  - now apply (OMM_CUDA_CHECK_Debug_thrown call call_text file line w r w' x).
  - now rewrite (OMM_CUDA_CHECK_Release_run call call_text file line w r w' C).
Qed.

(** What the two debug macros come to when the wrapped call has returned the
    success sentinel. *)
Lemma debug_macros_after_runtime_success (call : M cudaError_t) call_text file line w w' :
  call w = (Normal cudaSuccess, w') ->
  OMM_CUDA_CHECK Debug call call_text file line w
  = checkCudaError_cudaError_t (fst (device_synchronize (device w')))
      call_text file line (synchronized w') /\
  OMM_CUDA_CHECK_NOTHROW Debug call call_text file line w
  = checkCudaError_cudaError_t (fst (device_synchronize (device w')))
      call_text file line (synchronized w').
Proof.
  intros C. split.
  - exact (OMM_CUDA_CHECK_Debug_passed (H := Checked_cudaError_t)
             call call_text file line w cudaSuccess w' C eq_refl).
  - exact (OMM_CUDA_CHECK_NOTHROW_Debug_passed (H := Checked_cudaError_t)
             call call_text file line w cudaSuccess w' C eq_refl).
Qed.

Lemma debug_macros_after_driver_success (call : M CUresult) call_text file line w w' :
  call w = (Normal CUDA_SUCCESS, w') ->
  OMM_CUDA_CHECK Debug call call_text file line w
  = checkCudaError_cudaError_t (fst (device_synchronize (device w')))
      call_text file line (synchronized w') /\
  OMM_CUDA_CHECK_NOTHROW Debug call call_text file line w
  = checkCudaError_cudaError_t (fst (device_synchronize (device w')))
      call_text file line (synchronized w').
Proof.
  intros C. split.
  - exact (OMM_CUDA_CHECK_Debug_passed (H := Checked_CUresult)
             call call_text file line w CUDA_SUCCESS w' C eq_refl).
  - exact (OMM_CUDA_CHECK_NOTHROW_Debug_passed (H := Checked_CUresult)
             call call_text file line w CUDA_SUCCESS w' C eq_refl).
Qed.

(** X6.  With [NDEBUG] undefined, a failure that only the synchronization
    reports is raised by [OMM_CUDA_CHECK] under the wrapped call's name: the
    [Exception] carries [Result::ERROR_CUDA], and its message holds the text
    of the wrapped call, the description of the status the synchronization
    returned, and the name of the header. *)
Theorem debug_check_blames_the_wrapped_call_for_a_failed_synchronization
    (call_text file : string) (line : N) (w w' : world) :
  fst (device_synchronize (device w')) <> cudaSuccess ->
  exists x,
    (forall call : M cudaError_t,
        call w = (Normal cudaSuccess, w') ->
        OMM_CUDA_CHECK Debug call call_text file line w = (Throws x, synchronized w')) /\
    (forall call : M CUresult,
        call w = (Normal CUDA_SUCCESS, w') ->
        OMM_CUDA_CHECK Debug call call_text file line w = (Throws x, synchronized w')) /\
    getResult x = ERROR_CUDA /\
    contains call_text (what x) /\
    contains (cudaGetErrorString (fst (device_synchronize (device w')))) (what x) /\
    contains Exception_h_FILE (what x).
Proof.
  intros F.
  pose proof (checkCudaError_cudaError_t_failure _ call_text file line (synchronized w') F) as T.
  exists (Exception_c_str ERROR_CUDA
            (call_site_text call_text
               (cudaGetErrorString (fst (device_synchronize (device w'))))
               Exception_h_FILE Exception_h_LINE)).
  split; [|split; [|split; [reflexivity|]]].
  - intros call C.
    destruct (debug_macros_after_runtime_success call call_text file line w w' C) as [-> _].
    exact T.
  - intros call C.
    destruct (debug_macros_after_driver_success call call_text file line w w' C) as [-> _].
    exact T.
  - unfold Exception_c_str, what, call_site_text. repeat split; find_text.
Qed.

(** X7.  A wrapped call that returns the success sentinel makes both macros
    complete normally.  With [NDEBUG] defined the world is the one the call
    left; with [NDEBUG] undefined, and the synchronization reporting
    success too, it is that world after one synchronization. *)
Theorem macros_complete_after_success (call_text file : string) (line : N) (w w' : world) :
  (forall call : M cudaError_t,
      call w = (Normal cudaSuccess, w') ->
      OMM_CUDA_CHECK Release call call_text file line w = (Normal tt, w') /\
      OMM_CUDA_CHECK_NOTHROW Release call call_text file line w = (Normal tt, w') /\
      (fst (device_synchronize (device w')) = cudaSuccess ->
       OMM_CUDA_CHECK Debug call call_text file line w = (Normal tt, synchronized w') /\
       OMM_CUDA_CHECK_NOTHROW Debug call call_text file line w
       = (Normal tt, synchronized w'))) /\
  (forall call : M CUresult,
      call w = (Normal CUDA_SUCCESS, w') ->
      OMM_CUDA_CHECK Release call call_text file line w = (Normal tt, w') /\
      OMM_CUDA_CHECK_NOTHROW Release call call_text file line w = (Normal tt, w') /\
      (fst (device_synchronize (device w')) = cudaSuccess ->
       OMM_CUDA_CHECK Debug call call_text file line w = (Normal tt, synchronized w') /\
       OMM_CUDA_CHECK_NOTHROW Debug call call_text file line w
       = (Normal tt, synchronized w'))).
Proof.
  split; intros call C.
  - split; [|split].
    + now rewrite (OMM_CUDA_CHECK_Release_run call call_text file line w _ w' C).
    + now rewrite (OMM_CUDA_CHECK_NOTHROW_Release_run call call_text file line w _ w' C).
    + intros S.
      destruct (debug_macros_after_runtime_success call call_text file line w w' C) as [-> ->].
      rewrite S. now split.
  - split; [|split].
    + now rewrite (OMM_CUDA_CHECK_Release_run call call_text file line w _ w' C).
    + now rewrite (OMM_CUDA_CHECK_NOTHROW_Release_run call call_text file line w _ w' C).
    + intros S.
      destruct (debug_macros_after_driver_success call call_text file line w w' C) as [-> ->].
      rewrite S. now split.
Qed.

(** X8.  When the wrapped call itself returns a failure, the build
    configuration makes no difference: each macro ends the same way and
    leaves the same world with [NDEBUG] undefined as with [NDEBUG]
    defined. *)
Theorem build_is_irrelevant_after_a_failed_call (call_text file : string) (line : N) (w w' : world) :
  (forall (call : M cudaError_t) e,
      call w = (Normal e, w') -> e <> cudaSuccess ->
      OMM_CUDA_CHECK Debug call call_text file line w
      = OMM_CUDA_CHECK Release call call_text file line w /\
      OMM_CUDA_CHECK_NOTHROW Debug call call_text file line w
      = OMM_CUDA_CHECK_NOTHROW Release call call_text file line w) /\
  (forall (call : M CUresult) r,
      call w = (Normal r, w') -> r <> CUDA_SUCCESS ->
      OMM_CUDA_CHECK Debug call call_text file line w
      = OMM_CUDA_CHECK Release call call_text file line w /\
      OMM_CUDA_CHECK_NOTHROW Debug call call_text file line w
      = OMM_CUDA_CHECK_NOTHROW Release call call_text file line w).
Proof.
  split.
  - intros call e C F. split.
    + pose proof (checkCudaError_cudaError_t_failure e call_text file line w' F) as T.
      rewrite (OMM_CUDA_CHECK_thrown (H := Checked_cudaError_t) Debug call call_text file line w e w' _ C T).
      rewrite (OMM_CUDA_CHECK_thrown (H := Checked_cudaError_t) Release call call_text file line w e w' _ C T).
      reflexivity.
    + pose proof (checkCudaErrorNoThrow_cudaError_t_failure e call_text file line w' F) as T.
      rewrite (OMM_CUDA_CHECK_NOTHROW_terminated (H := Checked_cudaError_t) Debug call call_text file line w e w' _ C T).
      rewrite (OMM_CUDA_CHECK_NOTHROW_terminated (H := Checked_cudaError_t) Release call call_text file line w e w' _ C T).
      reflexivity.
  - intros call r C F. split.
    + pose proof (checkCudaError_CUresult_failure r call_text file line w' F) as T.
      rewrite (OMM_CUDA_CHECK_thrown (H := Checked_CUresult) Debug call call_text file line w r w' _ C T).
      rewrite (OMM_CUDA_CHECK_thrown (H := Checked_CUresult) Release call call_text file line w r w' _ C T).
      reflexivity.
    + pose proof (checkCudaErrorNoThrow_CUresult_failure r call_text file line w' F) as T.
      rewrite (OMM_CUDA_CHECK_NOTHROW_terminated (H := Checked_CUresult) Debug call call_text file line w r w' _ C T).
      rewrite (OMM_CUDA_CHECK_NOTHROW_terminated (H := Checked_CUresult) Release call call_text file line w r w' _ C T).
      reflexivity.
Qed.

(** X9.  With [NDEBUG] undefined, once the wrapped call has returned the
    success sentinel the non-throwing macro cannot be told from the throwing
    one: both end the same way in the same world, whatever the
    synchronization reports. *)
Theorem debug_macros_coincide_after_success (call_text file : string) (line : N) (w w' : world) :
  (forall call : M cudaError_t,
      call w = (Normal cudaSuccess, w') ->
      OMM_CUDA_CHECK_NOTHROW Debug call call_text file line w
      = OMM_CUDA_CHECK Debug call call_text file line w) /\
  (forall call : M CUresult,
      call w = (Normal CUDA_SUCCESS, w') ->
      OMM_CUDA_CHECK_NOTHROW Debug call call_text file line w
      = OMM_CUDA_CHECK Debug call call_text file line w).
Proof.
  split; intros call C.
  - now destruct (debug_macros_after_runtime_success call call_text file line w w' C) as [-> ->].
  - now destruct (debug_macros_after_driver_success call call_text file line w w' C) as [-> ->].
Qed.

End MacroCoverage.

(** ** What the macros never do *)

Section MacroLimits.

Context {env : Environment}.

(** The throwing runtime check ends in one of two ways, in the world it was
    given. *)
Lemma checkCudaError_cudaError_t_cases e expr file line w :
  checkCudaError_cudaError_t e expr file line w = (Normal tt, w) \/
  exists x, checkCudaError_cudaError_t e expr file line w = (Throws x, w).
Proof.
  destruct (cudaError_success_or_failure e) as [-> | F].
  - now left.
  - right. eexists. now apply checkCudaError_cudaError_t_failure.
Qed.

(** X10.  The non-throwing macro lets an [Exception] out in one situation
    only: [NDEBUG] is undefined, the wrapped call returned the success
    sentinel, and the synchronization after it reported a failure.  In every
    other run where the wrapped call returns, the macro throws nothing. *)
Theorem nothrow_macro_throws_only_after_a_failed_debug_synchronization
    (b : Build) (call_text file : string) (line : N) (w w' : world)
    (x : Exception) (w2 : world) :
  (forall (call : M cudaError_t) e,
      call w = (Normal e, w') ->
      OMM_CUDA_CHECK_NOTHROW b call call_text file line w = (Throws x, w2) ->
      b = Debug /\ e = cudaSuccess /\
      fst (device_synchronize (device w')) <> cudaSuccess /\
      w2 = synchronized w') /\
  (forall (call : M CUresult) r,
      call w = (Normal r, w') ->
      OMM_CUDA_CHECK_NOTHROW b call call_text file line w = (Throws x, w2) ->
      b = Debug /\ r = CUDA_SUCCESS /\
      fst (device_synchronize (device w')) <> cudaSuccess /\
      w2 = synchronized w').
Proof.
  split.
  - intros call e C T. destruct (cudaError_success_or_failure e) as [-> | F].
    + destruct b.
      * destruct (debug_macros_after_runtime_success call call_text file line w w' C)
          as [_ E].
        rewrite E in T. clear E.
        destruct (cudaError_success_or_failure (fst (device_synchronize (device w'))))
          as [S | F].
        -- rewrite S in T. discriminate T.
        -- rewrite (checkCudaError_cudaError_t_failure _ call_text file line _ F) in T.
           apply (f_equal snd) in T. simpl in T. now repeat split.
      * rewrite (OMM_CUDA_CHECK_NOTHROW_Release_run call call_text file line w _ w' C) in T.
        discriminate T.
    + pose proof (checkCudaErrorNoThrow_cudaError_t_failure e call_text file line w' F) as N.
      rewrite (OMM_CUDA_CHECK_NOTHROW_terminated (H := Checked_cudaError_t)
                 b call call_text file line w e w' _ C N) in T.
      discriminate T.
  - intros call r C T. destruct (CUresult_success_or_failure r) as [-> | F].
    + destruct b.
      * destruct (debug_macros_after_driver_success call call_text file line w w' C)
          as [_ E].
        rewrite E in T. clear E.
        destruct (cudaError_success_or_failure (fst (device_synchronize (device w'))))
          as [S | F].
        -- rewrite S in T. discriminate T.
        -- rewrite (checkCudaError_cudaError_t_failure _ call_text file line _ F) in T.
           apply (f_equal snd) in T. simpl in T. now repeat split.
      * rewrite (OMM_CUDA_CHECK_NOTHROW_Release_run call call_text file line w _ w' C) in T.
        discriminate T.
    + pose proof (checkCudaErrorNoThrow_CUresult_failure r call_text file line w' F) as N.
      rewrite (OMM_CUDA_CHECK_NOTHROW_terminated (H := Checked_CUresult)
                 b call call_text file line w r w' _ C N) in T.
      discriminate T.
Qed.

(** X11.  When the wrapped call returns, the throwing macro never ends the
    process and writes nothing to [std::cerr], in either build and whatever
    the statuses are. *)
Theorem throwing_macro_never_terminates_nor_writes
    (b : Build) (call_text file : string) (line : N) (w w' : world) :
  (forall (call : M cudaError_t) e,
      call w = (Normal e, w') ->
      fst (OMM_CUDA_CHECK b call call_text file line w) <> Terminated /\
      cerr (snd (OMM_CUDA_CHECK b call call_text file line w)) = cerr w') /\
  (forall (call : M CUresult) r,
      call w = (Normal r, w') ->
      fst (OMM_CUDA_CHECK b call call_text file line w) <> Terminated /\
      cerr (snd (OMM_CUDA_CHECK b call call_text file line w)) = cerr w').
Proof.
  split.
  - intros call e C. destruct (cudaError_success_or_failure e) as [-> | F].
    + destruct b.
      * destruct (debug_macros_after_runtime_success call call_text file line w w' C)
          as [-> _].
        destruct (checkCudaError_cudaError_t_cases
                    (fst (device_synchronize (device w'))) call_text file line
                    (synchronized w')) as [-> | [y ->]];
          (split; [discriminate | reflexivity]).
      * rewrite (OMM_CUDA_CHECK_Release_run call call_text file line w _ w' C).
        split; [discriminate | reflexivity].
    + pose proof (checkCudaError_cudaError_t_failure e call_text file line w' F) as T.
      rewrite (OMM_CUDA_CHECK_thrown (H := Checked_cudaError_t)
                 b call call_text file line w e w' _ C T).
      split; [discriminate | reflexivity].
  - intros call r C. destruct (CUresult_success_or_failure r) as [-> | F].
    + destruct b.
      * destruct (debug_macros_after_driver_success call call_text file line w w' C)
          as [-> _].
        destruct (checkCudaError_cudaError_t_cases
                    (fst (device_synchronize (device w'))) call_text file line
                    (synchronized w')) as [-> | [y ->]];
          (split; [discriminate | reflexivity]).
      * rewrite (OMM_CUDA_CHECK_Release_run call call_text file line w _ w' C).
        split; [discriminate | reflexivity].
    + pose proof (checkCudaError_CUresult_failure r call_text file line w' F) as T.
      rewrite (OMM_CUDA_CHECK_thrown (H := Checked_CUresult)
                 b call call_text file line w r w' _ C T).
      split; [discriminate | reflexivity].
Qed.

(** X13.  Neither macro stands between the wrapped expression and its
    caller: an [Exception] raised while the expression is evaluated leaves
    the macro as it is, the non-throwing macro included, with no check and
    no synchronization after it; a process ended there stays ended. *)
Theorem macros_let_the_wrapped_expression_fail {R} {H : Checked R}
    (b : Build) (call : M R) (call_text file : string) (line : N) (w w' : world) :
  (forall x,
      call w = (Throws x, w') ->
      OMM_CUDA_CHECK b call call_text file line w = (Throws x, w') /\
      OMM_CUDA_CHECK_NOTHROW b call call_text file line w = (Throws x, w')) /\
  (call w = (Terminated, w') ->
   OMM_CUDA_CHECK b call call_text file line w = (Terminated, w') /\
   OMM_CUDA_CHECK_NOTHROW b call call_text file line w = (Terminated, w')).
Proof.
  split.
  - intros x C. unfold OMM_CUDA_CHECK, OMM_CUDA_CHECK_NOTHROW.
    destruct b; split;
      repeat first [ apply bind_throws | exact C ].
  - intros C. unfold OMM_CUDA_CHECK, OMM_CUDA_CHECK_NOTHROW.
    destruct b; split;
      repeat first [ apply bind_terminated | exact C ].
Qed.

End MacroLimits.

(** ** Further runs on the scenario device *)

Section CoverageRuns.

Import Scenario.

#[local] Existing Instance Scenario.env.

(** X4 at a driver call refused on line 7 of [cleanup.cpp]. *)
Lemma driver_checks_compose_the_same_text_at_cleanup_cpp :
  CUresult_code 1 <> CUDA_SUCCESS /\
  exists x,
    checkCudaError_CUresult (CUresult_code 1) "cuMemFree( ptr )" "cleanup.cpp" 7 start
    = (Throws x, start) /\
    checkCudaErrorNoThrow_CUresult (CUresult_code 1) "cuMemFree( ptr )" "cleanup.cpp" 7 start
    = (Terminated, {| device := device start; cerr := cerr start ++ what x |}).
Proof.
  assert (F : CUresult_code 1 <> CUDA_SUCCESS) by discriminate.
  split; [exact F|].
  exact (driver_checks_compose_the_same_text
           (CUresult_code 1) "cuMemFree( ptr )" "cleanup.cpp" 7%N start F).
Defined.

(** X5 at a runtime call refused on line 7 of [cleanup.cpp]. *)
Lemma runtime_checks_agree_at_the_header_location_from_cleanup_cpp :
  cudaError 1 <> cudaSuccess /\
  exists x,
    checkCudaError_cudaError_t (cudaError 1) "cudaFree( ptr )" "cleanup.cpp" 7 start
    = (Throws x, start) /\
    checkCudaErrorNoThrow_cudaError_t (cudaError 1) "cudaFree( ptr )"
      "src/Util/Exception.h" 110 start
    = (Terminated, {| device := device start; cerr := cerr start ++ what x |}).
Proof.
  assert (F : cudaError 1 <> cudaSuccess) by discriminate.
  split; [exact F|].
  exact (runtime_checks_agree_at_the_header_location
           (cudaError 1) "cudaFree( ptr )" "cleanup.cpp" 7%N start F).
Defined.

(** X14 at lines 42 and 43 of [build.cpp]: the two runs differ. *)
Lemma runtime_nothrow_check_tells_lines_42_and_43_apart :
  cudaError 1 <> cudaSuccess /\
  checkCudaErrorNoThrow_cudaError_t (cudaError 1) "computeLaunch(...)" "build.cpp" 42 start
  <> checkCudaErrorNoThrow_cudaError_t (cudaError 1) "computeLaunch(...)" "build.cpp" 43 start.
Proof.
  assert (F : cudaError 1 <> cudaSuccess) by discriminate.
  split; [exact F|]. intros E.
  apply (runtime_nothrow_check_tells_lines_apart (cudaError 1)
           "computeLaunch(...)" "build.cpp" 42%N 43%N start F) in E.
  discriminate E.
Defined.

(** X16 at a runtime call and a driver call refused in [setup.cpp]. *)
Lemma device_failures_carry_ERROR_CUDA_at_setup_cpp :
  cudaError 1 <> cudaSuccess /\
  CUresult_code 1 <> CUDA_SUCCESS /\
  (exists x,
      checkCudaError_cudaError_t (cudaError 1) "cudaFree( ptr )" "setup.cpp" 11 start
      = (Throws x, start) /\
      getResult x = ERROR_CUDA) /\
  (exists x,
      checkCudaError_CUresult (CUresult_code 1) "cuMemFree( ptr )" "setup.cpp" 12 start
      = (Throws x, start) /\
      getResult x = ERROR_CUDA).
Proof.
  assert (Fe : cudaError 1 <> cudaSuccess) by discriminate.
  assert (Fr : CUresult_code 1 <> CUDA_SUCCESS) by discriminate.
  split; [exact Fe|]. split; [exact Fr|].
  destruct device_failures_carry_ERROR_CUDA as [A B].
  split.
  - exact (A (cudaError 1) "cudaFree( ptr )" "setup.cpp" 11%N start Fe).
  - exact (B (CUresult_code 1) "cuMemFree( ptr )" "setup.cpp" 12%N start Fr).
Defined.

(** X6 at a launch that is accepted and fails on the device. *)
Lemma debug_check_blames_the_faulty_launch :
  fst (device_synchronize (device (faulted 0))) <> cudaSuccess /\
  faulty_launch start = (Normal cudaSuccess, faulted 0) /\
  exists x,
    OMM_CUDA_CHECK Debug faulty_launch "launch( stream )" "bake.cpp" 42 start
    = (Throws x, faulted 1) /\
    getResult x = ERROR_CUDA /\
    contains "launch( stream )" (what x) /\
    contains "an illegal memory access was encountered" (what x).
Proof.
  assert (F : fst (device_synchronize (device (faulted 0))) <> cudaSuccess) by discriminate.
  split; [exact F|]. split; [reflexivity|].
  destruct (debug_check_blames_the_wrapped_call_for_a_failed_synchronization
              "launch( stream )" "bake.cpp" 42%N start (faulted 0) F)
    as [x (A & _ & G & T & D & _)].
  exists x. split; [exact (A faulty_launch eq_refl)|].
  split; [exact G|]. split; [exact T | exact D].
Defined.

(** X7 at a call that is accepted on an idle device. *)
Lemma macros_complete_on_an_idle_device :
  ret cudaSuccess start = (Normal cudaSuccess, start) /\
  fst (device_synchronize (device start)) = cudaSuccess /\
  OMM_CUDA_CHECK Release (ret cudaSuccess) "cudaFree( ptr )" "bake.cpp" 42 start
  = (Normal tt, start) /\
  OMM_CUDA_CHECK_NOTHROW Debug (ret cudaSuccess) "cudaFree( ptr )" "bake.cpp" 42 start
  = (Normal tt, synchronized start).
Proof.
  split; [reflexivity|]. split; [reflexivity|].
  destruct (proj1 (macros_complete_after_success "cudaFree( ptr )" "bake.cpp" 42%N start start)
              (ret cudaSuccess) eq_refl) as (A & _ & D).
  split; [exact A | exact (proj2 (D eq_refl))].
Defined.

(** X8 at a call that is refused. *)
Lemma build_is_irrelevant_at_the_refused_call :
  refused_call start = (Normal (cudaError 1), start) /\
  cudaError 1 <> cudaSuccess /\
  OMM_CUDA_CHECK Debug refused_call "computeLaunch(...)" "build.cpp" 42 start
  = OMM_CUDA_CHECK Release refused_call "computeLaunch(...)" "build.cpp" 42 start /\
  OMM_CUDA_CHECK_NOTHROW Debug refused_call "computeLaunch(...)" "build.cpp" 42 start
  = OMM_CUDA_CHECK_NOTHROW Release refused_call "computeLaunch(...)" "build.cpp" 42 start.
Proof.
  assert (F : cudaError 1 <> cudaSuccess) by discriminate.
  split; [reflexivity|]. split; [exact F|].
  exact (proj1 (build_is_irrelevant_after_a_failed_call
                  "computeLaunch(...)" "build.cpp" 42%N start start)
           refused_call (cudaError 1) eq_refl F).
Defined.

(** X9 at the faulty launch. *)
Lemma debug_macros_coincide_at_the_faulty_launch :
  faulty_launch start = (Normal cudaSuccess, faulted 0) /\
  OMM_CUDA_CHECK_NOTHROW Debug faulty_launch "launch( stream )" "cleanup.cpp" 7 start
  = OMM_CUDA_CHECK Debug faulty_launch "launch( stream )" "cleanup.cpp" 7 start.
Proof.
  split; [reflexivity|].
  exact (proj1 (debug_macros_coincide_after_success
                  "launch( stream )" "cleanup.cpp" 7%N start (faulted 0))
           faulty_launch eq_refl).
Defined.

(** X10 at the faulty launch, the one kind of run in which the non-throwing
    macro throws. *)
Lemma nothrow_macro_throws_at_the_faulty_launch_in_debug_only :
  faulty_launch start = (Normal cudaSuccess, faulted 0) /\
  OMM_CUDA_CHECK_NOTHROW Debug faulty_launch "launch( stream )" "cleanup.cpp" 7 start
  = (Throws (Exception_c_str ERROR_CUDA
       (call_site_text "launch( stream )" "an illegal memory access was encountered"
          "src/Util/Exception.h" 110)), faulted 1) /\
  (Debug = Debug /\ cudaSuccess = cudaSuccess /\
   fst (device_synchronize (device (faulted 0))) <> cudaSuccess /\
   faulted 1 = synchronized (faulted 0)).
Proof.
  split; [reflexivity|]. split; [reflexivity|].
  exact (proj1 (nothrow_macro_throws_only_after_a_failed_debug_synchronization
                  Debug "launch( stream )" "cleanup.cpp" 7%N start (faulted 0) _ (faulted 1))
           faulty_launch cudaSuccess eq_refl eq_refl).
Defined.

(** X11 at the refused call. *)
Lemma throwing_macro_at_the_refused_call :
  refused_call start = (Normal (cudaError 1), start) /\
  fst (OMM_CUDA_CHECK Debug refused_call "computeLaunch(...)" "build.cpp" 42 start)
  <> Terminated /\
  cerr (snd (OMM_CUDA_CHECK Debug refused_call "computeLaunch(...)" "build.cpp" 42 start))
  = cerr start.
Proof.
  split; [reflexivity|].
  exact (proj1 (throwing_macro_never_terminates_nor_writes
                  Debug "computeLaunch(...)" "build.cpp" 42%N start start)
           refused_call (cudaError 1) eq_refl).
Defined.

(** X13 at a wrapped expression that throws before it returns a status. *)
Lemma macros_let_a_throwing_expression_fail :
  (throw (Exception_string (ERROR_OTHER 2) "out of memory") : M cudaError_t) start
  = (Throws (Exception_string (ERROR_OTHER 2) "out of memory"), start) /\
  OMM_CUDA_CHECK_NOTHROW Release
    (throw (Exception_string (ERROR_OTHER 2) "out of memory") : M cudaError_t)
    "allocate( n )" "cleanup.cpp" 7 start
  = (Throws (Exception_string (ERROR_OTHER 2) "out of memory"), start).
Proof.
  split; [reflexivity|].
  exact (proj2 (proj1 (macros_let_the_wrapped_expression_fail (H := Checked_cudaError_t)
                         Release
                         (throw (Exception_string (ERROR_OTHER 2) "out of memory"))
                         "allocate( n )" "cleanup.cpp" 7%N start start)
                  (Exception_string (ERROR_OTHER 2) "out of memory") eq_refl)).
Defined.

End CoverageRuns.
